(** * chart_1_gpa_attendance.py: GPA vs attendance scatter plot

    A shallow embedding of the script [chart_1_gpa_attendance.py].  The
    script loads a table of student records, drops the rows that lack GPA,
    attendance or nationality status, derives a GPA category, builds and
    styles a scatter-plot figure, annotates it with the correlation of GPA and
    attendance, and exports it.

    Numeric cells are IEEE 754 binary64 values, as pandas holds them; they are
    modelled by Rocq's primitive floats, whose comparison operators are
    specified by [FloatAxioms].  A missing numeric cell is NaN, a missing
    text cell is [None]. *)

From Stdlib Require Import ZArith List Bool Lia Ascii Floats DecimalString.
From stdpp Require Import base option strings gmap.
Import ListNotations.

Set Warnings "-inexact-float".

Local Open Scope Z_scope.

(** * Part I: the program *)

(** ** Binary64 helpers *)

(** [float(n)] for a count [n]. *)
Definition float_of_nat (n : nat) : float :=
  PrimFloat.of_uint63 (Uint63.of_Z (Z.of_nat n)).

(** numpy's order for sorting and searching: as [<], with NaN after every
    other value. *)
Definition np_lt (a b : float) : bool :=
  PrimFloat.ltb a b || (PrimFloat.is_nan b && negb (PrimFloat.is_nan a)).

(** ** Text helpers *)

Definition newline : string := String (Ascii.ascii_of_nat 10) EmptyString.

(** [str(n)] for a non-negative integer. *)
Definition str_of_N (n : N) : string := NilZero.string_of_uint (N.to_uint n).

(** [sub in s] on Python strings. *)
Fixpoint contains (sub s : string) : bool :=
  String.prefix sub s ||
  match s with
  | EmptyString => false
  | String _ s' => contains sub s'
  end.

(** Rounding of the non-negative fraction [num / den] to the nearest integer,
    ties to even. *)
Definition round_half_even (num den : Z) : Z :=
  let q := num / den in
  let r := num mod den in
  match 2 * r ?= den with
  | Lt => q
  | Gt => q + 1
  | Eq => if Z.even q then q else q + 1
  end.

(** The magnitude [m * 2^e], in thousandths, correctly rounded. *)
Definition thousandths (m : positive) (e : Z) : Z :=
  if 0 <=? e then Z.pos m * 2 ^ e * 1000
  else round_half_even (Z.pos m * 1000) (2 ^ (- e)).

Definition pad3 (n : Z) : string :=
  let s := str_of_N (Z.to_N n) in
  if n <? 10 then "00" +:+ s else if n <? 100 then "0" +:+ s else s.

(** [format(x, '.3f')]: the exact binary value of [x] printed with three
    decimals, correctly rounded (ties to even). *)
Definition format_3f (x : float) : string :=
  match Prim2SF x with
  | S754_nan => "nan"
  | S754_infinity s => if s then "-inf" else "inf"
  | S754_zero s => if s then "-0.000" else "0.000"
  | S754_finite s m e =>
      let n := thousandths m e in
      (if s then "-" else "") +:+ str_of_N (Z.to_N (n / 1000)) +:+ "." +:+ pad3 (n mod 1000)
  end.

(** ** The table of student records *)

(** One record of [master_dataset.csv].  Numeric columns hold NaN where the
    file has no value, text columns hold [None]. *)
Record Row := mkRow {
  STUDENT_ID : option string;
  PERIOD : option string;
  GPA : float;
  ATTENDANCE : float;
  NATIONALITY_STATUS : option string;
  SELF_STUDY_HRS : float
}.

Definition DataFrame := list Row.

(** The columns of the input table that the script names. *)
Inductive Column :=
| ColStudentId | ColPeriod | ColGPA | ColAttendance | ColNationalityStatus
| ColSelfStudyHrs.

Definition column_name (c : Column) : string :=
  match c with
  | ColStudentId => "STUDENT ID"
  | ColPeriod => "PERIOD"
  | ColGPA => "GPA"
  | ColAttendance => "ATTENDANCE"
  | ColNationalityStatus => "NATIONALITY_STATUS"
  | ColSelfStudyHrs => "SELF-STUDY HRS"
  end.

Definition is_None {A} (o : option A) : bool :=
  match o with Some _ => false | None => true end.

(** [pd.isna] of the cell of row [r] in column [c]. *)
Definition isna (c : Column) (r : Row) : bool :=
  match c with
  | ColStudentId => is_None (STUDENT_ID r)
  | ColPeriod => is_None (PERIOD r)
  | ColGPA => PrimFloat.is_nan (GPA r)
  | ColAttendance => PrimFloat.is_nan (ATTENDANCE r)
  | ColNationalityStatus => is_None (NATIONALITY_STATUS r)
  | ColSelfStudyHrs => PrimFloat.is_nan (SELF_STUDY_HRS r)
  end.

(** [df.dropna(subset=...)]: the rows with a value in every column of
    [subset], in the order of [df]. *)
Definition dropna (subset : list Column) (df : DataFrame) : DataFrame :=
  List.filter (fun r => forallb (fun c => negb (isna c r)) subset) df.

(** ** Binning: [pd.cut] *)

(** [ndarray.searchsorted(key, side='left')] by binary search between
    [min_idx] and [max_idx]. *)
Fixpoint binsearch_left (a : list float) (key : float) (fuel min_idx max_idx : nat) : nat :=
  match fuel with
  | O => min_idx
  | S fuel' =>
      if (min_idx <? max_idx)%nat then
        let mid := (min_idx + (max_idx - min_idx) / 2)%nat in
        if np_lt (nth mid a PrimFloat.nan) key
        then binsearch_left a key fuel' (S mid) max_idx
        else binsearch_left a key fuel' min_idx mid
      else min_idx
  end.

Definition searchsorted_left (a : list float) (key : float) : nat :=
  binsearch_left a key (length a) 0 (length a).

(** [pd.cut(x, bins=bins, labels=labels)] with the defaults [right=True] and
    [include_lowest=False]: a value gets the label of the bin found by the
    search; NaN, a value at or below the first edge and a value above the last
    edge get no label. *)
Definition cut (x : float) (bins : list float) (labels : list string) : option string :=
  let ids := searchsorted_left bins x in
  let na_mask := PrimFloat.is_nan x || (ids =? length bins)%nat || (ids =? 0)%nat in
  if na_mask then None else labels !! (ids - 1)%nat.

Definition GPA_bins : list float := [0; 2.5; 3.5; 5.0]%float.

Definition GPA_labels : list string :=
  ["At Risk (<2.5)"; "Satisfactory (2.5-3.5)"; "Excellent (>3.5)"].

(** The GPA_CATEGORY of a GPA. *)
Definition gpa_category (gpa : float) : option string :=
  cut gpa GPA_bins GPA_labels.

(** A row of [df_chart1]: a row of the input with its GPA_CATEGORY. *)
Record ChartRow := mkChartRow {
  row : Row;
  GPA_CATEGORY : option string
}.

Definition required_columns : list Column :=
  [ColGPA; ColAttendance; ColNationalityStatus].

(** STEP 1: [df_chart1] once the GPA_CATEGORY column is added. *)
Definition df_chart1 (df : DataFrame) : list ChartRow :=
  map (fun r => mkChartRow r (gpa_category (GPA r)))
      (dropna required_columns df).

(** [Series.value_counts()]: how often each value occurs; missing values are
    not counted. *)
Definition value_counts (col : list (option string)) : gmap string nat :=
  foldr (fun v m =>
           match v with
           | Some k => <[k := S (default 0%nat (m !! k))]> m
           | None => m
           end) ∅ col.

(** ** Correlation: [Series.corr] *)

Definition fsum (l : list float) : float := fold_left PrimFloat.add l 0%float.

Definition mean (l : list float) : float :=
  (fsum l / float_of_nat (length l))%float.

Definition dot (a b : list float) : float :=
  fsum (map (fun p => (fst p * snd p)%float) (combine a b)).

(** [np.clip]; NaN stays NaN. *)
Definition clip (v lo hi : float) : float :=
  if PrimFloat.is_nan v then v
  else if PrimFloat.ltb v lo then lo
  else if PrimFloat.ltb hi v then hi
  else v.

(** [np.corrcoef(a, b)[0, 1]]: the covariance matrix of the two centred
    series, scaled by [1 / (n - 1)], divided by both standard deviations and
    clipped to [-1, 1].  Sums are accumulated from left to right. *)
Definition corrcoef (a b : list float) : float :=
  let n := length a in
  let fact := if (n <=? 1)%nat then 0%float else float_of_nat (n - 1) in
  let ma := mean a in
  let mb := mean b in
  let da := map (fun v => (v - ma)%float) a in
  let db := map (fun v => (v - mb)%float) b in
  let k := (1 / fact)%float in
  let c_aa := (dot da da * k)%float in
  let c_ab := (dot da db * k)%float in
  let c_bb := (dot db db * k)%float in
  clip (c_ab / PrimFloat.sqrt c_aa / PrimFloat.sqrt c_bb)%float (-1)%float 1%float.

(** [a.corr(b)] with the defaults [method='pearson'] and [min_periods=1]:
    pairs with a NaN are left out; with no pair left the result is NaN. *)
Definition corr (a b : list float) : float :=
  let valid :=
    List.filter (fun p => negb (PrimFloat.is_nan (fst p)) && negb (PrimFloat.is_nan (snd p)))
                (combine a b) in
  if (length valid <? 1)%nat then PrimFloat.nan
  else corrcoef (map fst valid) (map snd valid).

(** ** Figures

    A figure is what the plotting library is told: the arguments of
    [px.scatter], the layout, the two axes and the annotations.  A property
    the script never sets is [None]; an update sets the properties it names
    and leaves the others as they were. *)

Definition override {A} (new old : option A) : option A :=
  match new with Some _ => new | None => old end.

Module Font.
Record t := mk {
  family : option string;
  size : option Z;
  color : option string
}.
End Font.

Module Title.
Record t := mk {
  text : string;
  font : option Font.t;
  x : option float;
  xanchor : option string
}.
End Title.

Module Legend.
Record t := mk {
  title : option Title.t;
  bgcolor : option string;
  bordercolor : option string;
  borderwidth : option Z;
  font : option Font.t
}.
End Legend.

Module Hoverlabel.
Record t := mk {
  bgcolor : string;
  font_size : Z;
  font_family : string
}.
End Hoverlabel.

(** The keys [l], [r], [t], [b]; the top margin is [t_] here, [t] being the
    record itself. *)
Module Margin.
Record t := mk { l : Z; r : Z; t_ : Z; b : Z }.
End Margin.

Module Layout.
Record t := mk {
  plot_bgcolor : option string;
  paper_bgcolor : option string;
  font : option Font.t;
  title : option Title.t;
  legend : option Legend.t;
  hoverlabel : option Hoverlabel.t;
  height : option Z;
  width : option Z;
  margin : option Margin.t
}.

Definition update (patch old : t) : t :=
  mk (override (plot_bgcolor patch) (plot_bgcolor old))
     (override (paper_bgcolor patch) (paper_bgcolor old))
     (override (font patch) (font old))
     (override (title patch) (title old))
     (override (legend patch) (legend old))
     (override (hoverlabel patch) (hoverlabel old))
     (override (height patch) (height old))
     (override (width patch) (width old))
     (override (margin patch) (margin old)).
End Layout.

Module Axis.
Record t := mk {
  title_text : option string;
  showgrid : option bool;
  gridwidth : option Z;
  gridcolor : option string;
  zeroline : option bool;
  title_font : option Font.t;
  tickfont : option Font.t;
  range : option (float * float)
}.

Definition update (patch old : t) : t :=
  mk (override (title_text patch) (title_text old))
     (override (showgrid patch) (showgrid old))
     (override (gridwidth patch) (gridwidth old))
     (override (gridcolor patch) (gridcolor old))
     (override (zeroline patch) (zeroline old))
     (override (title_font patch) (title_font old))
     (override (tickfont patch) (tickfont old))
     (override (range patch) (range old)).
End Axis.

Module Annotation.
Record t := mk {
  text : string;
  xref : string;
  yref : string;
  x : float;
  y : float;
  showarrow : bool;
  bgcolor : string;
  bordercolor : string;
  borderwidth : Z;
  borderpad : Z;
  font : Font.t
}.
End Annotation.

Module px.
(** An entry of [hover_data]: [True], or a format. *)
Inductive hover := Shown | Formatted (spec : string).

(** The arguments of [px.scatter]. *)
Record scatter_args := mk {
  data_frame : list ChartRow;
  x : Column;
  y : Column;
  color : Column;
  size : Column;
  hover_data : list (Column * hover);
  trendline : string;
  title : string;
  labels : list (Column * string);
  color_discrete_map : list (string * string)
}.
End px.

Record Figure := mkFigure {
  data : px.scatter_args;
  layout : Layout.t;
  xaxis : Axis.t;
  yaxis : Axis.t;
  annotations : list Annotation.t
}.

Definition no_layout : Layout.t :=
  Layout.mk None None None None None None None None None.

Definition no_axis : Axis.t :=
  Axis.mk None None None None None None None None.

Definition column_eqb (c d : Column) : bool :=
  String.eqb (column_name c) (column_name d).

(** The display name of a column: its entry in [labels], or its own name. *)
Fixpoint label_of (labels : list (Column * string)) (c : Column) : string :=
  match labels with
  | [] => column_name c
  | (d, s) :: rest => if column_eqb c d then s else label_of rest c
  end.

(** [px.scatter(...)]: a figure of the given table, titled, with the axes and
    the legend named after the columns they show. *)
Definition px_scatter (args : px.scatter_args) : Figure :=
  let lbl := label_of (px.labels args) in
  mkFigure args
    (Layout.mk None None None
       (Some (Title.mk (px.title args) None None None))
       (Some (Legend.mk (Some (Title.mk (lbl (px.color args)) None None None))
                        None None None None))
       None None None None)
    (Axis.mk (Some (lbl (px.x args))) None None None None None None None)
    (Axis.mk (Some (lbl (px.y args))) None None None None None None None)
    [].

Definition update_layout (patch : Layout.t) (fig : Figure) : Figure :=
  mkFigure (data fig) (Layout.update patch (layout fig)) (xaxis fig) (yaxis fig)
           (annotations fig).

Definition update_xaxes (patch : Axis.t) (fig : Figure) : Figure :=
  mkFigure (data fig) (layout fig) (Axis.update patch (xaxis fig)) (yaxis fig)
           (annotations fig).

Definition update_yaxes (patch : Axis.t) (fig : Figure) : Figure :=
  mkFigure (data fig) (layout fig) (xaxis fig) (Axis.update patch (yaxis fig))
           (annotations fig).

Definition add_annotation (a : Annotation.t) (fig : Figure) : Figure :=
  mkFigure (data fig) (layout fig) (xaxis fig) (yaxis fig)
           (annotations fig ++ [a]).

(** STEP 2: the scatter plot. *)
Definition scatter_plot (df1 : list ChartRow) : Figure :=
  px_scatter
    (px.mk df1 ColAttendance ColGPA ColNationalityStatus ColSelfStudyHrs
       [(ColStudentId, px.Shown); (ColPeriod, px.Shown);
        (ColAttendance, px.Formatted ":.1f%"); (ColGPA, px.Formatted ":.2f");
        (ColSelfStudyHrs, px.Formatted ":.0f hrs")]
       "ols"
       "Student Performance: GPA vs Attendance by Nationality"
       [(ColAttendance, "Attendance Rate (%)"); (ColGPA, "Grade Point Average");
        (ColNationalityStatus, "Nationality")]
       [("SG Citizen", "#00d4aa"); ("SG PR", "#ffd93d"); ("Foreigner", "#ff6b6b")]).

(** STEP 3: the styling of the layout. *)
Definition layout_style : Layout.t :=
  Layout.mk
    (Some "#1e2130")
    (Some "#1e2130")
    (Some (Font.mk (Some "Arial, sans-serif") (Some 12) (Some "#e4e6eb")))
    (Some (Title.mk
             "<b>Student Performance: GPA vs Attendance</b><br><sub>Analysis by Nationality Status</sub>"
             (Some (Font.mk None (Some 20) (Some "#ffffff")))
             (Some 0.5%float)
             (Some "center")))
    (Some (Legend.mk
             (Some (Title.mk "<b>Nationality</b>" (Some (Font.mk None (Some 14) None)) None None))
             (Some "rgba(30, 33, 48, 0.8)")
             (Some "#00d4aa")
             (Some 1)
             (Some (Font.mk None (Some 11) None))))
    (Some (Hoverlabel.mk "#2a2d3a" 12 "Arial"))
    (Some 600)
    (Some 1000)
    (Some (Margin.mk 80 80 100 80)).

(** STEP 4: the styling of the axes. *)
Definition xaxes_style : Axis.t :=
  Axis.mk None (Some true) (Some 1) (Some "rgba(255, 255, 255, 0.1)") (Some false)
    (Some (Font.mk None (Some 14) (Some "#00d4aa")))
    (Some (Font.mk None (Some 11) None))
    (Some (45, 105)%float).

Definition yaxes_style : Axis.t :=
  Axis.mk None (Some true) (Some 1) (Some "rgba(255, 255, 255, 0.1)") (Some false)
    (Some (Font.mk None (Some 14) (Some "#00d4aa")))
    (Some (Font.mk None (Some 11) None))
    (Some (1.5, 4.2)%float).

(** STEP 5: the correlation of GPA with attendance over [df_chart1], and the
    annotation that shows it. *)
Definition correlation (df1 : list ChartRow) : float :=
  corr (map (fun r => GPA (row r)) df1) (map (fun r => ATTENDANCE (row r)) df1).

Definition strength (correlation : float) : string :=
  if PrimFloat.ltb 0.5 (PrimFloat.abs correlation) then "Strong" else "Moderate".

Definition annotation_text (correlation : float) : string :=
  "<b>Correlation: " +:+ format_3f correlation +:+ "</b><br>" +:+
  strength correlation +:+ " positive relationship".

Definition correlation_annotation (correlation : float) : Annotation.t :=
  Annotation.mk (annotation_text correlation) "paper" "paper" 0.02 0.98 false
    "rgba(0, 212, 170, 0.2)" "#00d4aa" 2 8
    (Font.mk None (Some 12) (Some "#ffffff")).

(** The figure at the end of STEP 5. *)
Definition figure (df1 : list ChartRow) : Figure :=
  add_annotation (correlation_annotation (correlation df1))
    (update_yaxes yaxes_style
       (update_xaxes xaxes_style
          (update_layout layout_style (scatter_plot df1)))).

(** ** The script and its effects

    The script reads one file, prints, shows the figure and writes two
    files.  A run threads the world (the files, the directories, and the log
    of what the run did, in order) and ends normally or with an uncaught
    exception; what was done before an exception stays done.  What a written
    file holds is recorded as the figure it renders and the export
    parameters. *)

Inductive File :=
| CsvFile (table : DataFrame)
| HtmlFile (fig : Figure)
| ImageFile (fig : Figure) (width height scale : Z).

Inductive Event :=
| EvPrint (text : string)
| EvPrintCounts (heading : string) (counts : gmap string nat)
| EvShow (fig : Figure)
| EvWriteHtml (path : string) (fig : Figure)
| EvWriteImage (path : string) (fig : Figure) (width height scale : Z).

Record World := mkWorld {
  files : gmap string File;
  directories : gset string;
  events : list Event
}.

Inductive Exception :=
| FileNotFoundError (path : string)
| ParserError (path : string).

Inductive Result (A : Type) :=
| Ok (a : A)
| Raised (e : Exception).
Arguments Ok {A} a.
Arguments Raised {A} e.

Definition Script (A : Type) : Type := World -> Result A * World.

#[global] Instance script_ret : MRet Script := fun A a w => (Ok a, w).

#[global] Instance script_bind : MBind Script := fun A B f m w =>
  match m w with
  | (Ok a, w') => f a w'
  | (Raised e, w') => (Raised e, w')
  end.

Definition raise {A} (e : Exception) : Script A := fun w => (Raised e, w).

Definition emit (e : Event) : Script unit := fun w =>
  (Ok tt, mkWorld (files w) (directories w) (events w ++ [e])).

Definition store (path : string) (f : File) : Script unit := fun w =>
  (Ok tt, mkWorld (<[path := f]> (files w)) (directories w) (events w)).

(** The part of a path before its last slash, if it has one. *)
Fixpoint parent (path : string) : option string :=
  match path with
  | EmptyString => None
  | String c rest =>
      match parent rest with
      | Some d => Some (String c d)
      | None => if Ascii.eqb c "/"%char then Some EmptyString else None
      end
  end.

(** A file can be created where its directory exists; a bare file name is
    created in the working directory. *)
Definition writable (path : string) : Script unit := fun w =>
  match parent path with
  | None => (Ok tt, w)
  | Some d =>
      if bool_decide (d ∈ directories w) then (Ok tt, w)
      else (Raised (FileNotFoundError path), w)
  end.

Definition read_csv (path : string) : Script DataFrame := fun w =>
  match files w !! path with
  | Some (CsvFile table) => (Ok table, w)
  | Some _ => (Raised (ParserError path), w)
  | None => (Raised (FileNotFoundError path), w)
  end.

Definition print (text : string) : Script unit := emit (EvPrint text).

Definition show (fig : Figure) : Script unit := emit (EvShow fig).

(** [fig.write_html(path)]: creates the file or replaces what it held. *)
Definition write_html (path : string) (fig : Figure) : Script unit :=
  writable path ;; store path (HtmlFile fig) ;; emit (EvWriteHtml path fig).

(** [fig.write_image(path, width=, height=, scale=)]. *)
Definition write_image (path : string) (fig : Figure) (width height scale : Z) : Script unit :=
  writable path ;; store path (ImageFile fig width height scale) ;;
  emit (EvWriteImage path fig width height scale).

Definition input_path : string := "cleaned_data/master_dataset.csv".
Definition html_path : string := "charts/chart_1_gpa_attendance.html".
Definition png_path : string := "charts/chart_1_gpa_attendance.png".

(** [df_chart1['NATIONALITY_STATUS'].value_counts()]. *)
Definition nationality_breakdown (df1 : list ChartRow) : gmap string nat :=
  value_counts (map (fun r => NATIONALITY_STATUS (row r)) df1).

Definition summary_line (df1 : list ChartRow) : string :=
  "Chart 1 Data: " +:+ str_of_N (N.of_nat (length df1)) +:+
  " students with complete GPA/Attendance data".

(** STEP 1, the two prints once the table is prepared. *)
Definition print_summary (df1 : list ChartRow) : Script unit :=
  print (summary_line df1) ;;
  emit (EvPrintCounts "Nationality breakdown:" (nationality_breakdown df1)).

(** STEP 6: display and save. *)
Definition export (fig : Figure) : Script unit :=
  show fig ;;
  write_html html_path fig ;;
  write_image png_path fig 1200 700 2 ;;
  print (newline +:+ "✅ Chart 1 created successfully!") ;;
  print "Files saved:" ;;
  print "  - charts/chart_1_gpa_attendance.html" ;;
  print "  - charts/chart_1_gpa_attendance.png".

(** The lines of the closing insights. *)
Definition insights (correlation : float) : list string :=
  [ newline +:+ "📊 KEY INSIGHTS FOR POWERPOINT:";
    "1. POSITIVE CORRELATION: Higher attendance strongly correlates with better GPA";
    "   (r = " +:+ format_3f correlation +:+ "), suggesting attendance is a key success factor";
    newline +:+ "2. NATIONALITY PATTERNS: [Analyze the plot - do certain groups cluster?";
    "   Look for: Do foreigners have different attendance patterns? Better/worse GPA?]";
    newline +:+ "3. AT-RISK IDENTIFICATION: Students with <75% attendance tend to have GPA <3.0";
    "   Recommendation: Flag students with low attendance for early intervention" ].

Fixpoint print_all (lines : list string) : Script unit :=
  match lines with
  | [] => mret tt
  | l :: rest => print l ;; print_all rest
  end.

(** The whole script. *)
Definition main : Script unit :=
  df ← read_csv input_path ;
  let df1 := df_chart1 df in
  print_summary df1 ;;
  let fig := figure df1 in
  export fig ;;
  print_all (insights (correlation df1)).

(** What a run leaves behind, and how it ended. *)
Definition world_after {A} (m : Script A) (w : World) : World := snd (m w).
Definition outcome {A} (m : Script A) (w : World) : Result A := fst (m w).




(** A world in which nothing has run yet: the input table under its path and
    the given directories. *)
Definition initial_world (df : DataFrame) (dirs : list string) : World :=
  mkWorld {[ input_path := CsvFile df ]} (list_to_set dirs) [].

(** ** Sample tables *)

Definition sample_row (nationality : option string) (gpa attendance : float) : Row :=
  mkRow (Some "S001") (Some "2024") gpa attendance nationality 10%float.

(** Ten students on a line: attendance [50 + 10 i], GPA [2.0 + 0.1 i]. *)
Definition linear_df : DataFrame :=
  map (fun i => sample_row (Some "SG Citizen")
                  (2.0 + 0.1 * float_of_nat i)%float
                  (50 + 10 * float_of_nat i)%float)
      (seq 0 10).

(** ** Vocabulary of the properties *)

(** The comparison of two binary64 values through their specification:
    [None] when one of them is NaN. *)
Definition cmp (x y : float) : option comparison :=
  SFcompare (Prim2SF x) (Prim2SF y).

(** A row takes part in the chart when it has a GPA, an attendance and a
    nationality status. *)
Definition complete (r : Row) : bool :=
  negb (PrimFloat.is_nan (GPA r)) && negb (PrimFloat.is_nan (ATTENDANCE r)) &&
  negb (is_None (NATIONALITY_STATUS r)).

(** How many cells of a column hold the value [k]. *)
Definition occurrences (k : string) (col : list (option string)) : nat :=
  length (List.filter (fun v => bool_decide (v = Some k)) col).

(** A count as [value_counts] reports it: values that do not occur have no
    entry. *)
Definition reported (n : nat) : option nat :=
  if (n =? 0)%nat then None else Some n.

(** The effects of STEP 6 on a figure, in order, and the lines it prints
    after them. *)
Definition export_effects (fig : Figure) : list Event :=
  [EvShow fig; EvWriteHtml html_path fig; EvWriteImage png_path fig 1200 700 2].

Definition saved_lines : list string :=
  [ newline +:+ "✅ Chart 1 created successfully!";
    "Files saved:";
    "  - charts/chart_1_gpa_attendance.html";
    "  - charts/chart_1_gpa_attendance.png" ].

(** The two prints of STEP 1. *)
Definition summary_prints (df1 : list ChartRow) : list Event :=
  [EvPrint (summary_line df1);
   EvPrintCounts "Nationality breakdown:" (nationality_breakdown df1)].

(** The files once the chart is exported. *)
Definition exported_files (fig : Figure) (fs : gmap string File) : gmap string File :=
  <[png_path := ImageFile fig 1200 700 2]> (<[html_path := HtmlFile fig]> fs).

(** The line that reports success. *)
Definition success_line : string := newline +:+ "✅ Chart 1 created successfully!".

(** The sum of the counts of a breakdown. *)
Definition breakdown_total (counts : gmap string nat) : nat :=
  map_fold (fun _ n acc => (n + acc)%nat) 0%nat counts.

(** Edges in increasing order, as numpy orders them: no later edge sorts
    before an earlier one. *)
Definition np_sorted (a : list float) : Prop :=
  forall (i j : nat) (x y : float),
    (i <= j)%nat -> a !! i = Some x -> a !! j = Some y -> np_lt y x = false.

(** * Part II: properties *)

(** ** Ordering of binary64 values

    The primitive comparisons are related to [SFcompare] by the axioms of
    [FloatAxioms]; the facts below are what the bin search needs: the strict
    order is transitive, and on comparable values [<=] is the negation of the
    converse strict order. *)

Module F64.

Lemma ltb_cmp x y : PrimFloat.ltb x y = true <-> cmp x y = Some Lt.
Proof.
  rewrite FloatAxioms.ltb_spec. unfold SFltb, cmp.
  destruct (SFcompare _ _) as [[]|]; split; congruence.
Qed.

Lemma leb_cmp x y :
  PrimFloat.leb x y = true <-> cmp x y = Some Lt \/ cmp x y = Some Eq.
Proof.
  rewrite FloatAxioms.leb_spec. unfold SFleb, cmp.
  destruct (SFcompare _ _) as [[]|]; split; intros H; auto;
    try discriminate; destruct H; discriminate.
Qed.

Lemma is_nan_cmp x : PrimFloat.is_nan x = false <-> cmp x x = Some Eq.
Proof.
  unfold PrimFloat.is_nan. rewrite FloatAxioms.eqb_spec. unfold SFeqb, cmp.
  destruct (SFcompare _ _) as [[]|]; simpl; split; congruence.
Qed.

Ltac cmp_cases :=
  repeat match goal with
  | |- context [Z.compare ?a ?b] => destruct (Z.compare_spec a b)
  | |- context [Pos.compare_cont Eq ?a ?b] =>
      change (Pos.compare_cont Eq a b) with (Pos.compare a b);
      destruct (Pos.compare_spec a b)
  | H : context [Z.compare ?a ?b] |- _ => destruct (Z.compare_spec a b)
  | H : context [Pos.compare_cont Eq ?a ?b] |- _ =>
      change (Pos.compare_cont Eq a b) with (Pos.compare a b) in H;
      destruct (Pos.compare_spec a b)
  end.

Lemma SFcompare_swap a b :
  SFcompare b a = option_map CompOpp (SFcompare a b).
Proof.
  destruct a as [[]|[]| |[] ma ea], b as [[]|[]| |[] mb eb]; simpl;
    try reflexivity; cmp_cases; simpl; try reflexivity;
    try (exfalso; lia); subst; try (exfalso; lia).
Qed.

Lemma SFcompare_nan_r a b :
  SFcompare a b = None -> SFcompare a a = None \/ SFcompare b b = None.
Proof.
  destruct a as [[]|[]| |[] ma ea], b as [[]|[]| |[] mb eb]; simpl;
    intros H; try discriminate; auto.
Qed.

Lemma SFcompare_lt_trans a b c :
  SFcompare a b = Some Lt -> SFcompare b c = Some Lt ->
  SFcompare a c = Some Lt.
Proof.
  destruct a as [[]|[]| |[] ma ea], b as [[]|[]| |[] mb eb],
    c as [[]|[]| |[] mc ec]; simpl; intros H1 H2;
    try discriminate; try reflexivity;
    cmp_cases; simpl in *; try discriminate; try reflexivity;
    try (exfalso; lia); subst; try (exfalso; lia).
Qed.

Lemma SFcompare_lt_eq_trans a b c :
  SFcompare a b = Some Lt -> SFcompare b c = Some Eq ->
  SFcompare a c = Some Lt.
Proof.
  destruct a as [[]|[]| |[] ma ea], b as [[]|[]| |[] mb eb],
    c as [[]|[]| |[] mc ec]; simpl; intros H1 H2;
    try discriminate; try reflexivity;
    cmp_cases; simpl in *; try discriminate; try reflexivity;
    try (exfalso; lia); subst; try (exfalso; lia).
Qed.

(** [a < b] and [b < c] give [a < c]. *)
Lemma ltb_trans a b c :
  PrimFloat.ltb a b = true -> PrimFloat.ltb b c = true ->
  PrimFloat.ltb a c = true.
Proof. rewrite !ltb_cmp. apply SFcompare_lt_trans. Qed.

(** [a < b] and [b <= c] give [a < c]. *)
Lemma ltb_leb_trans a b c :
  PrimFloat.ltb a b = true -> PrimFloat.leb b c = true ->
  PrimFloat.ltb a c = true.
Proof.
  rewrite !ltb_cmp, leb_cmp. intros H1 [H2|H2].
  - eapply SFcompare_lt_trans; eauto.
  - eapply SFcompare_lt_eq_trans; eauto.
Qed.

(** [x <= c] excludes [c < x]. *)
Lemma leb_not_ltb x c :
  PrimFloat.leb x c = true -> PrimFloat.ltb c x = false.
Proof.
  intros H. apply leb_cmp in H. apply not_true_is_false. intros L.
  apply ltb_cmp in L. unfold cmp in *.
  rewrite SFcompare_swap in L.
  destruct H as [H|H]; rewrite H in L; discriminate.
Qed.

(** On values that are not NaN, [not (c < x)] is [x <= c]. *)
Lemma not_ltb_leb x c :
  PrimFloat.is_nan x = false -> PrimFloat.is_nan c = false ->
  PrimFloat.ltb c x = false -> PrimFloat.leb x c = true.
Proof.
  intros Hx Hc L. apply is_nan_cmp in Hx. apply is_nan_cmp in Hc.
  apply leb_cmp. unfold cmp in *.
  destruct (SFcompare (Prim2SF x) (Prim2SF c)) as [[]|] eqn:E; auto.
  - exfalso. apply not_true_iff_false in L. apply L. apply ltb_cmp.
    unfold cmp. rewrite SFcompare_swap, E. reflexivity.
  - apply SFcompare_nan_r in E. destruct E; congruence.
Qed.

(** Whatever is strictly above some value is not NaN. *)
Lemma ltb_not_nan c x : PrimFloat.ltb c x = true -> PrimFloat.is_nan x = false.
Proof.
  intros L. apply ltb_cmp in L. apply is_nan_cmp. unfold cmp in *.
  destruct (Prim2SF c) as [[]|[]| |[] mc ec], (Prim2SF x) as [[]|[]| |[] mx ex];
    simpl in *; try discriminate; try reflexivity;
    rewrite Z.compare_refl; change (Pos.compare_cont Eq mx mx) with (Pos.compare mx mx);
    rewrite Pos.compare_refl; reflexivity.
Qed.

Lemma leb_not_nan x c : PrimFloat.leb x c = true -> PrimFloat.is_nan x = false.
Proof.
  intros L. apply leb_cmp in L. apply is_nan_cmp. unfold cmp in *.
  destruct (Prim2SF x) as [[]|[]| |[] mx ex], (Prim2SF c) as [[]|[]| |[] mc ec];
    simpl in *; try (destruct L; discriminate); try reflexivity;
    rewrite Z.compare_refl; change (Pos.compare_cont Eq mx mx) with (Pos.compare mx mx);
    rewrite Pos.compare_refl; reflexivity.
Qed.

End F64.

(** ** The bins of GPA_CATEGORY *)

Section Binning.

Local Open Scope float_scope.

(** The search never runs out of fuel: any fuel that covers the interval
    gives the same index. *)
Lemma binsearch_left_fuel (a : list float) (key : float) (n m lo hi : nat) :
  (hi - lo <= n)%nat -> (hi - lo <= m)%nat ->
  binsearch_left a key n lo hi = binsearch_left a key m lo hi.
Proof.
  revert m lo hi. induction n as [|n IH]; intros m lo hi Hn Hm.
  - destruct m as [|m]; [reflexivity|]. cbn [binsearch_left].
    destruct (Nat.ltb_spec lo hi); [lia|reflexivity].
  - destruct m as [|m]; cbn [binsearch_left].
    + destruct (Nat.ltb_spec lo hi); [lia|reflexivity].
    + destruct (Nat.ltb_spec lo hi) as [L|L]; [|reflexivity].
      assert ((hi - lo) / 2 < hi - lo)%nat as D
        by (apply Nat.div_lt; lia).
      destruct (np_lt _ key); apply IH; lia.
Qed.

(** The search over the four edges, unfolded: which comparisons decide the
    label. *)
Lemma gpa_category_cases (x : float) :
  gpa_category x =
    if PrimFloat.is_nan x then None
    else if 3.5 <? x
         then if 5 <? x then None else Some "Excellent (>3.5)"%string
         else if 2.5 <? x then Some "Satisfactory (2.5-3.5)"%string
         else if 0 <? x then Some "At Risk (<2.5)"%string
         else None.
Proof.
  unfold gpa_category, cut, searchsorted_left, GPA_bins, GPA_labels.
  cbn [length binsearch_left Nat.ltb Nat.leb Nat.sub Nat.add Nat.div Nat.divmod fst nth].
  unfold np_lt.
  destruct (PrimFloat.is_nan x) eqn:N.
  - reflexivity.
  - rewrite !andb_false_l, !orb_false_r. cbn [orb].
    destruct (3.5 <? x); [destruct (5 <? x)|destruct (2.5 <? x); [|destruct (0 <? x)]];
      reflexivity.
Qed.

(** No value lies above [lo] and at or below [hi] unless [lo < hi]. *)
Lemma no_value_between (lo hi x : float) :
  (lo <? hi) = false -> (lo <? x) = true -> (x <=? hi) = true -> False.
Proof.
  intros C L U. rewrite (F64.ltb_leb_trans _ _ _ L U) in C. discriminate.
Qed.

Lemma no_value_above (lo hi x : float) :
  (lo <? hi) = true -> (lo <? x) = false -> (hi <? x) = true -> False.
Proof.
  intros C L U. rewrite (F64.ltb_trans _ _ _ C U) in L. discriminate.
Qed.

(** The first bin is (0, 2.5]. *)
Lemma at_risk_iff (x : float) :
  gpa_category x = Some "At Risk (<2.5)"%string <->
  (0 <? x) = true /\ (x <=? 2.5) = true.
Proof.
  rewrite gpa_category_cases. split.
  - destruct (PrimFloat.is_nan x) eqn:N; [discriminate|].
    destruct (3.5 <? x) eqn:A; [destruct (5 <? x); discriminate|].
    destruct (2.5 <? x) eqn:B; [discriminate|].
    destruct (0 <? x) eqn:C; [|discriminate].
    intros _. split; [reflexivity|]. now apply F64.not_ltb_leb.
  - intros [L U]. rewrite (F64.ltb_not_nan _ _ L), L, (F64.leb_not_ltb _ _ U).
    destruct (3.5 <? x) eqn:A; [|reflexivity].
    exfalso. now apply (no_value_between 3.5 2.5 x).
Qed.

(** The second bin is (2.5, 3.5]. *)
Lemma satisfactory_iff (x : float) :
  gpa_category x = Some "Satisfactory (2.5-3.5)"%string <->
  (2.5 <? x) = true /\ (x <=? 3.5) = true.
Proof.
  rewrite gpa_category_cases. split.
  - destruct (PrimFloat.is_nan x) eqn:N; [discriminate|].
    destruct (3.5 <? x) eqn:A; [destruct (5 <? x); discriminate|].
    destruct (2.5 <? x) eqn:B; [|destruct (0 <? x); discriminate].
    intros _. split; [reflexivity|]. now apply F64.not_ltb_leb.
  - intros [L U]. now rewrite (F64.ltb_not_nan _ _ L), L, (F64.leb_not_ltb _ _ U).
Qed.

(** The third bin is (3.5, 5]. *)
Lemma excellent_iff (x : float) :
  gpa_category x = Some "Excellent (>3.5)"%string <->
  (3.5 <? x) = true /\ (x <=? 5) = true.
Proof.
  rewrite gpa_category_cases. split.
  - destruct (PrimFloat.is_nan x) eqn:N; [discriminate|].
    destruct (3.5 <? x) eqn:A.
    + destruct (5 <? x) eqn:B; [discriminate|].
      intros _. split; [reflexivity|]. now apply F64.not_ltb_leb.
    + destruct (2.5 <? x); [discriminate|destruct (0 <? x); discriminate].
  - intros [L U]. now rewrite (F64.ltb_not_nan _ _ L), L, (F64.leb_not_ltb _ _ U).
Qed.

(** Outside (0, 5] there is no label. *)
Lemma no_category_iff (x : float) :
  gpa_category x = None <->
  PrimFloat.is_nan x = true \/ (x <=? 0) = true \/ (5 <? x) = true.
Proof.
  rewrite gpa_category_cases. split.
  - destruct (PrimFloat.is_nan x) eqn:N; [auto|].
    destruct (3.5 <? x) eqn:A.
    + destruct (5 <? x) eqn:B; [auto|discriminate].
    + destruct (2.5 <? x) eqn:B; [discriminate|].
      destruct (0 <? x) eqn:C; [discriminate|].
      intros _. right. left. now apply F64.not_ltb_leb.
  - intros [N|[U|L]].
    + now rewrite N.
    + rewrite (F64.leb_not_nan _ _ U), (F64.leb_not_ltb _ _ U).
      destruct (3.5 <? x) eqn:A.
      { exfalso. now apply (no_value_between 3.5 0 x). }
      destruct (2.5 <? x) eqn:B; [|reflexivity].
      exfalso. now apply (no_value_between 2.5 0 x).
    + rewrite (F64.ltb_not_nan _ _ L), L.
      destruct (3.5 <? x) eqn:A; [reflexivity|].
      exfalso. now apply (no_value_above 3.5 5 x).
Qed.

End Binning.

(** ** The filtered table *)

Section Tables.

Lemma dropna_required (df : DataFrame) :
  dropna required_columns df = List.filter complete df.
Proof.
  unfold dropna, required_columns, complete. apply List.filter_ext. intros r.
  cbn [forallb isna]. now rewrite andb_true_r, andb_assoc.
Qed.

Lemma rows_of_df_chart1 (df : DataFrame) :
  map row (df_chart1 df) = dropna required_columns df.
Proof.
  unfold df_chart1. rewrite List.map_map. cbn [row]. apply List.map_id.
Qed.

Lemma complete_iff (r : Row) :
  complete r = true <->
  PrimFloat.is_nan (GPA r) = false /\ PrimFloat.is_nan (ATTENDANCE r) = false /\
  NATIONALITY_STATUS r <> None.
Proof.
  unfold complete. rewrite !andb_true_iff, !negb_true_iff.
  destruct (NATIONALITY_STATUS r); cbn [is_None]; intuition congruence.
Qed.

Lemma in_df_chart1 (df : DataFrame) (c : ChartRow) :
  In c (df_chart1 df) <->
  In (row c) df /\ complete (row c) = true /\
  GPA_CATEGORY c = gpa_category (GPA (row c)).
Proof.
  unfold df_chart1. rewrite dropna_required, in_map_iff. split.
  - intros (r & <- & H). apply filter_In in H. cbn [row GPA_CATEGORY]. tauto.
  - intros (H1 & H2 & H3). exists (row c). split.
    + destruct c as [r g]. cbn [row GPA_CATEGORY] in *. now rewrite H3.
    + apply filter_In. tauto.
Qed.

Lemma value_counts_lookup (col : list (option string)) (k : string) :
  value_counts col !! k = reported (occurrences k col).
Proof.
  unfold reported, occurrences.
  induction col as [|v col IH]; cbn [value_counts foldr List.filter length].
  - apply lookup_empty.
  - fold (value_counts col). destruct v as [k'|].
    + destruct (decide (k' = k)) as [->|Hne].
      * rewrite lookup_insert_eq, bool_decide_eq_true_2 by reflexivity.
        rewrite IH. cbn [length].
        now destruct (length _).
      * rewrite lookup_insert_ne by exact Hne.
        rewrite bool_decide_eq_false_2 by congruence. exact IH.
    + rewrite bool_decide_eq_false_2 by discriminate. exact IH.
Qed.

Lemma filter_map_length {A B} (f : A -> B) (p : B -> bool) (l : list A) :
  length (List.filter p (map f l)) = length (List.filter (fun a => p (f a)) l).
Proof.
  induction l as [|a l IH]; cbn [map List.filter]; [reflexivity|].
  destruct (p (f a)); cbn [length]; now rewrite IH.
Qed.

Lemma filter_filter {A} (p q : A -> bool) (l : list A) :
  List.filter p (List.filter q l) = List.filter (fun a => q a && p a) l.
Proof.
  induction l as [|a l IH]; cbn [List.filter]; [reflexivity|].
  destruct (q a); cbn [List.filter andb]; [destruct (p a)|]; now rewrite IH.
Qed.

(** The breakdown counts the complete rows of each nationality. *)
Lemma nationality_breakdown_lookup (df : DataFrame) (k : string) :
  nationality_breakdown (df_chart1 df) !! k =
  reported (length (List.filter
     (fun r => complete r && bool_decide (NATIONALITY_STATUS r = Some k)) df)).
Proof.
  unfold nationality_breakdown. rewrite value_counts_lookup. f_equal.
  unfold occurrences.
  rewrite <- (List.map_map row NATIONALITY_STATUS), rows_of_df_chart1.
  rewrite dropna_required, filter_map_length. now rewrite filter_filter.
Qed.

End Tables.

(** ** Runs of the script *)

Section Runs.

Lemma bind_ok {A B} (m : Script A) (f : A -> Script B) w a w' :
  m w = (Ok a, w') -> (m ≫= f) w = f a w'.
Proof. unfold mbind, script_bind. now intros ->. Qed.

Lemma bind_raised {A B} (m : Script A) (f : A -> Script B) w e w' :
  m w = (Raised e, w') -> (m ≫= f) w = (Raised e, w').
Proof. unfold mbind, script_bind. now intros ->. Qed.

Lemma print_all_run (lines : list string) (w : World) :
  print_all lines w =
  (Ok tt, mkWorld (files w) (directories w) (events w ++ map EvPrint lines)).
Proof.
  revert w. induction lines as [|l lines IH]; intros w; cbn [print_all map].
  - rewrite app_nil_r. now destruct w.
  - erewrite bind_ok by reflexivity. rewrite IH. cbn [files directories events].
    now rewrite <- app_assoc.
Qed.

Lemma print_summary_run (df1 : list ChartRow) (w : World) :
  print_summary df1 w =
  (Ok tt, mkWorld (files w) (directories w) (events w ++ summary_prints df1)).
Proof.
  unfold print_summary. erewrite bind_ok by reflexivity.
  unfold emit. cbn [files directories events]. now rewrite <- app_assoc.
Qed.

Lemma parent_html : parent html_path = Some "charts"%string.
Proof. reflexivity. Qed.

Lemma parent_png : parent png_path = Some "charts"%string.
Proof. reflexivity. Qed.

Lemma writable_ok (path d : string) (w : World) :
  parent path = Some d -> d ∈ directories w -> writable path w = (Ok tt, w).
Proof.
  intros P D. unfold writable. rewrite P. now rewrite bool_decide_eq_true_2.
Qed.

Lemma writable_fails (path d : string) (w : World) :
  parent path = Some d -> d ∉ directories w ->
  writable path w = (Raised (FileNotFoundError path), w).
Proof.
  intros P D. unfold writable. rewrite P. now rewrite bool_decide_eq_false_2.
Qed.

(** With the directory in place the exporter shows, writes both files and
    prints. *)
Lemma export_ok (fig : Figure) (w : World) :
  "charts"%string ∈ directories w ->
  export fig w =
  (Ok tt, mkWorld (exported_files fig (files w)) (directories w)
            (events w ++ export_effects fig ++ map EvPrint saved_lines)).
Proof.
  intros D. unfold export, write_html, write_image.
  erewrite bind_ok by reflexivity.
  erewrite bind_ok.
  2:{ erewrite bind_ok by (apply (writable_ok _ _ _ parent_html); exact D).
      erewrite bind_ok by reflexivity. reflexivity. }
  erewrite bind_ok.
  2:{ erewrite bind_ok by (apply (writable_ok _ _ _ parent_png); exact D).
      erewrite bind_ok by reflexivity. reflexivity. }
  do 3 (erewrite bind_ok by reflexivity).
  unfold show, print, emit, store, exported_files, export_effects, saved_lines.
  cbn [files directories events map].
  rewrite <- !app_assoc. reflexivity.
Qed.

(** Without the directory the exporter shows the figure and stops at the
    first write. *)
Lemma export_fails (fig : Figure) (w : World) :
  "charts"%string ∉ directories w ->
  export fig w =
  (Raised (FileNotFoundError html_path),
   mkWorld (files w) (directories w) (events w ++ [EvShow fig])).
Proof.
  intros D. unfold export, write_html.
  erewrite bind_ok by reflexivity.
  erewrite bind_raised; [reflexivity|].
  erewrite bind_raised; [reflexivity|].
  now apply (writable_fails _ _ _ parent_html).
Qed.

Lemma read_csv_ok (w : World) (df : DataFrame) :
  files w !! input_path = Some (CsvFile df) -> read_csv input_path w = (Ok df, w).
Proof. unfold read_csv. now intros ->. Qed.

(** A run with the input table and the output directory in place. *)
Lemma main_ok (w : World) (df : DataFrame) :
  files w !! input_path = Some (CsvFile df) ->
  "charts"%string ∈ directories w ->
  main w =
  (Ok tt,
   mkWorld (exported_files (figure (df_chart1 df)) (files w)) (directories w)
     (events w ++ summary_prints (df_chart1 df) ++
      export_effects (figure (df_chart1 df)) ++ map EvPrint saved_lines ++
      map EvPrint (insights (correlation (df_chart1 df))))).
Proof.
  intros I D. unfold main.
  erewrite bind_ok by (apply read_csv_ok; exact I). cbv zeta.
  erewrite bind_ok by apply print_summary_run.
  erewrite bind_ok by (apply export_ok; exact D).
  rewrite print_all_run. cbn [files directories events].
  now rewrite <- !app_assoc.
Qed.

(** A run with the input table but no output directory. *)
Lemma main_no_directory (w : World) (df : DataFrame) :
  files w !! input_path = Some (CsvFile df) ->
  "charts"%string ∉ directories w ->
  main w =
  (Raised (FileNotFoundError html_path),
   mkWorld (files w) (directories w)
     (events w ++ summary_prints (df_chart1 df) ++ [EvShow (figure (df_chart1 df))])).
Proof.
  intros I D. unfold main.
  erewrite bind_ok by (apply read_csv_ok; exact I). cbv zeta.
  erewrite bind_ok by apply print_summary_run.
  erewrite bind_raised by (apply export_fails; exact D).
  cbn [files directories events]. now rewrite <- !app_assoc.
Qed.






End Runs.

(** ** Text *)

Section Text.

Lemma prefix_append (s t : string) : String.prefix s (s +:+ t) = true.
Proof.
  induction s as [|a s IH]; simpl.
  - now destruct t.
  - destruct (Ascii.ascii_dec a a); [exact IH|congruence].
Qed.

Lemma contains_prefix (sub s : string) :
  String.prefix sub s = true -> contains sub s = true.
Proof. intros H. destruct s; cbn [contains]; now rewrite H. Qed.

Lemma contains_append (sub a s : string) :
  contains sub s = true -> contains sub (a +:+ s) = true.
Proof.
  intros H. induction a as [|c a IH]; [exact H|].
  change (String c a +:+ s) with (String c (a +:+ s)).
  cbn [contains]. rewrite IH. apply orb_true_r.
Qed.

(** A text contains what it was assembled from. *)
Lemma contains_middle (sub a b : string) :
  contains sub (a +:+ sub +:+ b) = true.
Proof. apply contains_append, contains_prefix, prefix_append. Qed.

Lemma annotation_text_strength (r : float) :
  contains (strength r) (annotation_text r) = true.
Proof.
  unfold annotation_text.
  do 2 apply contains_append. apply contains_middle.
Qed.

Lemma annotation_text_positive (r : float) :
  contains "positive" (annotation_text r) = true.
Proof.
  unfold annotation_text.
  do 3 apply contains_append.
  unfold strength. now destruct (PrimFloat.ltb _ _).
Qed.

End Text.

(** ** The properties of the script *)

Section Claims.

Local Open Scope float_scope.

(** C1: GPA_CATEGORY is the bucket of the row's GPA among the edges
    [0, 2.5, 3.5, 5.0], for every filtered row.  A GPA of 2.0 is bucketed
    "At Risk (<2.5)", 3.0 "Satisfactory (2.5-3.5)" and 4.0 "Excellent (>3.5)".
    The bins are half-open, open on the left and closed on the right: exactly
    2.5 is "At Risk (<2.5)", exactly 3.5 is "Satisfactory (2.5-3.5)", and a
    GPA has a label exactly when it lies in the label's bin (0, 2.5],
    (2.5, 3.5] or (3.5, 5.0]. *)
Theorem C1_gpa_category_bins :
  GPA_bins = [0; 2.5; 3.5; 5.0] /\
  (forall df : DataFrame,
     Forall (fun c => GPA_CATEGORY c = gpa_category (GPA (row c))) (df_chart1 df)) /\
  gpa_category 2.0 = Some "At Risk (<2.5)"%string /\
  gpa_category 3.0 = Some "Satisfactory (2.5-3.5)"%string /\
  gpa_category 4.0 = Some "Excellent (>3.5)"%string /\
  gpa_category 2.5 = Some "At Risk (<2.5)"%string /\
  gpa_category 3.5 = Some "Satisfactory (2.5-3.5)"%string /\
  (forall x : float,
     (gpa_category x = Some "At Risk (<2.5)"%string <->
        (0 <? x) = true /\ (x <=? 2.5) = true) /\
     (gpa_category x = Some "Satisfactory (2.5-3.5)"%string <->
        (2.5 <? x) = true /\ (x <=? 3.5) = true) /\
     (gpa_category x = Some "Excellent (>3.5)"%string <->
        (3.5 <? x) = true /\ (x <=? 5.0) = true)).
Proof.
  split; [reflexivity|]. split.
  { intros df. apply List.Forall_forall. intros c H. now apply in_df_chart1 in H. }
  repeat (split; [reflexivity|]).
  intros x. split; [apply at_risk_iff|]. split; [apply satisfactory_iff|].
  apply excellent_iff.
Qed.

(** C2: the filtered table holds exactly the rows of the input that have a
    GPA, an attendance and a nationality status, unchanged, in their order
    and as often as they occur; whether a row has a student id, a period or
    study hours plays no part.  The nationality breakdown counts, for each
    nationality, the rows of the input that have all three fields and that
    nationality, so a row that lacks one of the three is not counted. *)
Theorem C2_filtered_table (df : DataFrame) :
  map row (df_chart1 df) = List.filter complete df /\
  (forall r : Row,
     In r (map row (df_chart1 df)) <->
     In r df /\ PrimFloat.is_nan (GPA r) = false /\
     PrimFloat.is_nan (ATTENDANCE r) = false /\ NATIONALITY_STATUS r <> None) /\
  (forall (r : Row) (id period : option string) (hours : float),
     complete (mkRow id period (GPA r) (ATTENDANCE r) (NATIONALITY_STATUS r) hours)
     = complete r) /\
  (forall k : string,
     nationality_breakdown (df_chart1 df) !! k =
     reported (length (List.filter
       (fun r => complete r && bool_decide (NATIONALITY_STATUS r = Some k)) df))).
Proof.
  split; [now rewrite rows_of_df_chart1, dropna_required|].
  split.
  { intros r. rewrite rows_of_df_chart1, dropna_required, filter_In, complete_iff.
    reflexivity. }
  split; [reflexivity|].
  apply nationality_breakdown_lookup.
Qed.

(** C3: whatever the correlation [r], the text of the annotation contains
    "Strong" when [abs r > 0.5] and "Moderate" otherwise, and it contains
    "positive" in both cases, also for a negative [r]; the figure carries
    this annotation and no other. *)
Theorem C3_annotation_label (r : float) :
  contains (if 0.5 <? PrimFloat.abs r then "Strong"%string else "Moderate"%string)
           (annotation_text r) = true /\
  contains "positive" (annotation_text r) = true /\
  annotation_text (-0.9) =
    "<b>Correlation: -0.900</b><br>Strong positive relationship"%string /\
  annotation_text 0.3 =
    "<b>Correlation: 0.300</b><br>Moderate positive relationship"%string /\
  (forall df1 : list ChartRow,
     map Annotation.text (annotations (figure df1)) =
     [annotation_text (correlation df1)]).
Proof.
  split; [apply annotation_text_strength|].
  split; [apply annotation_text_positive|].
  repeat (split; [reflexivity|]). reflexivity.
Qed.





(** C6: whatever the table, the figure is 600 high and 1000 wide, its x axis
    shows attendance over the range [45, 105] and its y axis shows GPA over
    the range [1.5, 4.2]; the figure holds every row of the table, inside
    these ranges or not. *)
Theorem C6_fixed_dimensions_and_ranges (df1 : list ChartRow) :
  Layout.height (layout (figure df1)) = Some 600%Z /\
  Layout.width (layout (figure df1)) = Some 1000%Z /\
  px.x (data (figure df1)) = ColAttendance /\
  Axis.range (xaxis (figure df1)) = Some (45, 105) /\
  px.y (data (figure df1)) = ColGPA /\
  Axis.range (yaxis (figure df1)) = Some (1.5, 4.2) /\
  px.data_frame (data (figure df1)) = df1.
Proof. repeat split. Qed.







(** C10: a row that passes the filter with a GPA at or below 0, or above
    5.0, stays in the filtered table and in the data of the figure, with no
    GPA_CATEGORY.  A GPA has no category exactly when it is NaN, at or below
    0, or above 5.0; so 0, -1 and 5.5 have none, and the three labels do not
    cover every GPA that is present. *)
Theorem C10_gpa_outside_bins (df : DataFrame) (r : Row) :
  In r df ->
  PrimFloat.is_nan (ATTENDANCE r) = false ->
  NATIONALITY_STATUS r <> None ->
  (GPA r <=? 0) = true \/ (5.0 <? GPA r) = true ->
  In (mkChartRow r None) (df_chart1 df) /\
  In (mkChartRow r None) (px.data_frame (data (figure (df_chart1 df)))) /\
  (forall c : ChartRow, In c (df_chart1 df) -> row c = r -> GPA_CATEGORY c = None) /\
  (forall x : float,
     gpa_category x = None <->
     PrimFloat.is_nan x = true \/ (x <=? 0) = true \/ (5.0 <? x) = true) /\
  gpa_category 0 = None /\ gpa_category (-1) = None /\ gpa_category 5.5 = None.
Proof.
  intros Hin Ha Hn Hg.
  assert (gpa_category (GPA r) = None) as Hc.
  { apply no_category_iff. tauto. }
  assert (PrimFloat.is_nan (GPA r) = false) as Hg'.
  { destruct Hg as [U|L]; [eapply F64.leb_not_nan|eapply F64.ltb_not_nan]; eassumption. }
  assert (In (mkChartRow r None) (df_chart1 df)) as H.
  { apply in_df_chart1. cbn [row GPA_CATEGORY].
    split; [exact Hin|]. split; [|now rewrite Hc]. apply complete_iff. tauto. }
  split; [exact H|]. split; [exact H|]. split.
  { intros c Hc1 <-. apply in_df_chart1 in Hc1. destruct Hc1 as (_ & _ & ->). exact Hc. }
  split; [apply no_category_iff|]. repeat split.
Qed.

Lemma C10_gpa_outside_bins_witness :
  let r := sample_row (Some "Foreigner"%string) 5.5 90 in
  In (mkChartRow r None) (df_chart1 [sample_row (Some "SG PR"%string) 3.0 80; r]).
Proof.
  cbv zeta.
  apply (C10_gpa_outside_bins
           [sample_row (Some "SG PR"%string) 3.0 80;
            sample_row (Some "Foreigner"%string) 5.5 90]
           (sample_row (Some "Foreigner"%string) 5.5 90)).
  - simpl. right. left. reflexivity.
  - reflexivity.
  - discriminate.
  - right. reflexivity.
Defined.

End Claims.

(** ** Failing runs and what a run leaves alone *)

Section Failures.

Lemma main_input_missing (w : World) :
  files w !! input_path = None ->
  main w = (Raised (FileNotFoundError input_path), w).
Proof.
  intros I. unfold main, mbind, script_bind, read_csv. now rewrite I.
Qed.

Lemma main_input_unreadable (w : World) :
  (forall df : DataFrame, files w !! input_path <> Some (CsvFile df)) ->
  exists e : Exception, main w = (Raised e, w).
Proof.
  intros I. unfold main, mbind, script_bind, read_csv.
  destruct (files w !! input_path) as [[df| |]|] eqn:E; eauto.
  now destruct (I df).
Qed.

(** The first line of the summary differs from every later line: it alone
    starts with "Chart". *)
Lemma summary_line_head (df1 : list ChartRow) :
  exists rest : string, summary_line df1 = String "C" rest.
Proof. unfold summary_line. eexists. reflexivity. Qed.

Lemma saved_line_not_summary (df1 : list ChartRow) (line : string) :
  In line saved_lines -> line <> summary_line df1.
Proof.
  destruct (summary_line_head df1) as [rest ->]. unfold saved_lines.
  intros [<-|[<-|[<-|[<-|[]]]]]; discriminate.
Qed.


(** What a run without the output directory has printed: the summary only. *)
Lemma not_printed_without_directory (df1 : list ChartRow) (fig : Figure) (line : string) :
  line <> summary_line df1 ->
  ~ In (EvPrint line) ([] ++ summary_prints df1 ++ [EvShow fig]).
Proof.
  intros N. cbn. intros [H|[H|[H|[]]]]; try discriminate.
  injection H as H. now apply N.
Qed.

(** X1: without the input file the run ends at once with FileNotFoundError
    for the input path: nothing is printed, shown or written. *)
Theorem X1_missing_input_stops_the_run (w : World) :
  files w !! input_path = None ->
  outcome main w = Raised (FileNotFoundError input_path) /\
  world_after main w = w.
Proof.
  intros I. unfold outcome, world_after. now rewrite (main_input_missing w I).
Qed.

Lemma X1_missing_input_stops_the_run_witness :
  let w := mkWorld ∅ (list_to_set ["charts"%string]) [] in
  outcome main w = Raised (FileNotFoundError input_path) /\
  world_after main w = w.
Proof.
  cbv zeta.
  apply (X1_missing_input_stops_the_run (mkWorld ∅ (list_to_set ["charts"%string]) [])).
  vm_compute. reflexivity.
Defined.



(** X3: the script reports success only after both files are written: when
    the success line is among what a run printed, the run ended normally and
    the two output paths hold the rendering of the run's figure. *)
Theorem X3_success_means_files_written (fs : gmap string File) (dirs : gset string) :
  let w' := world_after main (mkWorld fs dirs []) in
  In (EvPrint success_line) (events w') ->
  exists df : DataFrame,
    fs !! input_path = Some (CsvFile df) /\
    outcome main (mkWorld fs dirs []) = Ok tt /\
    files w' !! html_path = Some (HtmlFile (figure (df_chart1 df))) /\
    files w' !! png_path = Some (ImageFile (figure (df_chart1 df)) 1200 700 2).
Proof.
  intros w'. unfold w', outcome, world_after.
  destruct (fs !! input_path) as [[df| |]|] eqn:I.
  - destruct (decide ("charts"%string ∈ dirs)) as [D|D].
    + intros _. exists df. rewrite (main_ok (mkWorld fs dirs []) df I D).
      cbn [fst snd files]. unfold exported_files.
      split; [reflexivity|]. split; [reflexivity|]. split.
      * rewrite lookup_insert_ne by discriminate. apply lookup_insert_eq.
      * apply lookup_insert_eq.
    + rewrite (main_no_directory (mkWorld fs dirs []) df I D). cbn [snd events].
      intros H. exfalso. revert H. apply not_printed_without_directory.
      apply saved_line_not_summary. now left.
  - destruct (main_input_unreadable (mkWorld fs dirs [])) as [e ->].
    + cbn [files]. intros df. rewrite I. discriminate.
    + intros [].
  - destruct (main_input_unreadable (mkWorld fs dirs [])) as [e ->].
    + cbn [files]. intros df. rewrite I. discriminate.
    + intros [].
  - destruct (main_input_unreadable (mkWorld fs dirs [])) as [e ->].
    + cbn [files]. intros df. rewrite I. discriminate.
    + intros [].
Qed.

Lemma X3_success_means_files_written_witness :
  exists df : DataFrame,
    ({[ input_path := CsvFile linear_df ]} : gmap string File) !! input_path =
      Some (CsvFile df) /\
    outcome main (initial_world linear_df ["charts"%string]) = Ok tt /\
    files (world_after main (initial_world linear_df ["charts"%string])) !! html_path =
      Some (HtmlFile (figure (df_chart1 df))) /\
    files (world_after main (initial_world linear_df ["charts"%string])) !! png_path =
      Some (ImageFile (figure (df_chart1 df)) 1200 700 2).
Proof.
  apply (X3_success_means_files_written {[ input_path := CsvFile linear_df ]}
           (list_to_set ["charts"%string])).
  vm_compute. do 5 right. left. reflexivity.
Defined.

(** X4: whatever the world, a run leaves the input file and every file
    other than the two outputs as they were, creates no directory, and only
    adds to the log. *)
Theorem X4_run_touches_only_the_outputs (w : World) :
  files (world_after main w) !! input_path = files w !! input_path /\
  (forall p : string,
     p <> html_path -> p <> png_path ->
     files (world_after main w) !! p = files w !! p) /\
  directories (world_after main w) = directories w /\
  events w `prefix_of` events (world_after main w).
Proof.
  unfold world_after.
  destruct (files w !! input_path) as [[df| |]|] eqn:I.
  1: destruct (decide ("charts"%string ∈ directories w)) as [D|D].
  - rewrite (main_ok w df I D). cbn [snd files directories events].
    unfold exported_files.
    split; [now rewrite !lookup_insert_ne by discriminate|].
    split; [intros p H1 H2; now rewrite !lookup_insert_ne by congruence|].
    split; [reflexivity|]. now eexists.
  - rewrite (main_no_directory w df I D). cbn [snd files directories events].
    rewrite I. repeat split. now eexists.
  - destruct (main_input_unreadable w) as [e ->].
    + intros df. rewrite I. discriminate.
    + cbn [snd]. rewrite I. repeat split. reflexivity.
  - destruct (main_input_unreadable w) as [e ->].
    + intros df. rewrite I. discriminate.
    + cbn [snd]. rewrite I. repeat split. reflexivity.
  - destruct (main_input_unreadable w) as [e ->].
    + intros df. rewrite I. discriminate.
    + cbn [snd]. rewrite I. repeat split. reflexivity.
Qed.

End Failures.

(** ** More on the filtered table *)

Section FilteredTable.

Lemma dropna_filter (subset : list Column) (df : DataFrame) :
  dropna subset df = List.filter (fun r => forallb (fun c => negb (isna c r)) subset) df.
Proof. reflexivity. Qed.

Lemma filter_length_le {A} (p : A -> bool) (l : list A) :
  (length (List.filter p l) <= length l)%nat.
Proof.
  induction l as [|a l IH]; cbn [List.filter length]; [lia|].
  destruct (p a); cbn [length]; lia.
Qed.

Lemma filter_length_all {A} (p : A -> bool) (l : list A) :
  length (List.filter p l) = length l <-> List.filter p l = l.
Proof.
  split; [|now intros ->].
  induction l as [|a l IH]; cbn [List.filter length]; [reflexivity|].
  destruct (p a); cbn [length]; intros H.
  - f_equal. apply IH. lia.
  - pose proof (filter_length_le p l). lia.
Qed.

Lemma filter_all_forallb {A} (p : A -> bool) (l : list A) :
  List.filter p l = l <-> forallb p l = true.
Proof.
  induction l as [|a l IH]; cbn [List.filter forallb]; [tauto|].
  destruct (p a) eqn:E; cbn [andb].
  - rewrite <- IH. split; [now intros [= ->]|now intros ->].
  - split; [|discriminate]. intros H.
    pose proof (filter_length_le p l) as L. rewrite H in L. cbn [length] in L. lia.
Qed.

Lemma filter_idem {A} (p : A -> bool) (l : list A) :
  List.filter p (List.filter p l) = List.filter p l.
Proof.
  rewrite filter_filter. apply List.filter_ext. intros a. now destruct (p a).
Qed.


Lemma df_chart1_length (df : DataFrame) :
  length (df_chart1 df) = length (List.filter complete df).
Proof. now rewrite <- (length_map row), rows_of_df_chart1, dropna_required. Qed.

(** X5: the number of rows the script reports never exceeds the number of
    rows of the input, and equals it exactly when every row of the input has
    a GPA, an attendance and a nationality status, in which case the
    filtered table holds the input rows as they are. *)
Theorem X5_row_count (df : DataFrame) :
  (length (df_chart1 df) <= length df)%nat /\
  (length (df_chart1 df) = length df <-> forallb complete df = true) /\
  (length (df_chart1 df) = length df <-> map row (df_chart1 df) = df).
Proof.
  rewrite df_chart1_length, rows_of_df_chart1, dropna_required.
  split; [apply filter_length_le|].
  split; [|apply filter_length_all].
  now rewrite filter_length_all, filter_all_forallb.
Qed.

(** X6: dropping by several columns at once is dropping by each group of
    columns in turn, in either order, and dropping again drops nothing
    more; with no column named, nothing is dropped. *)
Theorem X6_dropna_composes (s1 s2 : list Column) (df : DataFrame) :
  dropna (s1 ++ s2) df = dropna s2 (dropna s1 df) /\
  dropna (s1 ++ s2) df = dropna (s2 ++ s1) df /\
  dropna s1 (dropna s1 df) = dropna s1 df /\
  dropna [] df = df.
Proof.
  rewrite !dropna_filter. split; [|split; [|split]].
  - rewrite filter_filter. apply List.filter_ext. intros r.
    now rewrite forallb_app.
  - apply List.filter_ext. intros r. rewrite !forallb_app. apply andb_comm.
  - apply filter_idem.
  - cbn [forallb]. induction df as [|r df IH]; cbn [List.filter]; [reflexivity|].
    now rewrite IH.
Qed.


End FilteredTable.

(** ** More on the nationality breakdown *)

Section Breakdown.

Lemma breakdown_total_insert (m : gmap string nat) (k : string) (v : nat) :
  breakdown_total (<[k := v]> m) = (v + breakdown_total (delete k m))%nat.
Proof.
  unfold breakdown_total. rewrite <- insert_delete_eq.
  apply map_fold_insert_L; [intros; lia|apply lookup_delete_eq].
Qed.

Lemma breakdown_total_delete (m : gmap string nat) (k : string) :
  breakdown_total m = (default 0%nat (m !! k) + breakdown_total (delete k m))%nat.
Proof.
  destruct (m !! k) as [x|] eqn:E.
  - change (default 0%nat (Some x)) with x.
    unfold breakdown_total.
    apply (map_fold_delete_L (fun _ n acc => (n + acc)%nat)); [intros; lia|exact E].
  - now rewrite delete_id.
Qed.

Lemma value_counts_total (col : list (option string)) :
  breakdown_total (value_counts col) =
  length (List.filter (fun v => negb (is_None v)) col).
Proof.
  induction col as [|v col IH]; cbn [value_counts foldr List.filter].
  - apply map_fold_empty.
  - fold (value_counts col). destruct v as [k|]; cbn [is_None negb length].
    + rewrite breakdown_total_insert, <- IH.
      rewrite (breakdown_total_delete (value_counts col) k). lia.
    + exact IH.
Qed.

Lemma nationality_present (df : DataFrame) :
  List.filter (fun v => negb (is_None v))
    (map (fun c => NATIONALITY_STATUS (row c)) (df_chart1 df)) =
  map (fun c => NATIONALITY_STATUS (row c)) (df_chart1 df).
Proof.
  apply filter_all_forallb, forallb_forall. intros v H.
  apply in_map_iff in H. destruct H as (c & <- & H).
  apply in_df_chart1 in H. destruct H as (_ & H & _).
  unfold complete in H. apply andb_true_iff in H. tauto.
Qed.

Lemma occurrences_positive (k : string) (col : list (option string)) :
  (0 < occurrences k col)%nat <-> In (Some k) col.
Proof.
  unfold occurrences. induction col as [|v col IH]; cbn [List.filter length In].
  - split; [lia|tauto].
  - destruct (bool_decide_reflect (v = Some k)) as [->|N]; cbn [length].
    + split; [auto|lia].
    + rewrite IH. split; [auto|]. intros [H|H]; [contradiction|exact H].
Qed.


(** X8: the two summaries agree: the counts of the nationality breakdown
    add up to the number of rows reported.  Each nationality listed occurs
    in the filtered table, each nationality of the filtered table is
    listed, and no listed count is zero. *)
Theorem X8_breakdown_adds_up (df : DataFrame) :
  breakdown_total (nationality_breakdown (df_chart1 df)) = length (df_chart1 df) /\
  (forall k : string,
     is_Some (nationality_breakdown (df_chart1 df) !! k) <->
     exists c : ChartRow, In c (df_chart1 df) /\ NATIONALITY_STATUS (row c) = Some k) /\
  (forall (k : string) (n : nat),
     nationality_breakdown (df_chart1 df) !! k = Some n ->
     (1 <= n <= length (df_chart1 df))%nat).
Proof.
  split; [|split].
  - unfold nationality_breakdown.
    now rewrite value_counts_total, nationality_present, length_map.
  - intros k. unfold nationality_breakdown. rewrite value_counts_lookup.
    unfold reported. split.
    + intros H.
      assert (In (Some k) (map (fun c => NATIONALITY_STATUS (row c)) (df_chart1 df))) as I.
      { apply occurrences_positive. destruct (occurrences k _); [|lia].
        now apply is_Some_None in H. }
      apply in_map_iff in I. destruct I as (c & Hk & Hc). eauto.
    + intros (c & Hc & Hk).
      assert (0 < occurrences k (map (fun c => NATIONALITY_STATUS (row c)) (df_chart1 df)))%nat as P.
      { apply occurrences_positive, in_map_iff. eauto. }
      destruct (occurrences k _); [lia|]. cbn. eauto.
  - intros k n. unfold nationality_breakdown. rewrite value_counts_lookup.
    unfold reported, occurrences.
    pose proof (filter_length_le (fun v => bool_decide (v = Some k))
                  (map (fun c => NATIONALITY_STATUS (row c)) (df_chart1 df))) as L.
    rewrite length_map in L.
    destruct (length (List.filter _ _)) eqn:E; cbn; intros [= <-]. lia.
Qed.



End Breakdown.

(** ** The bin search on any increasing edges *)

Section Search.

Local Open Scope float_scope.

Lemma SFcompare_lt_weak (x y z : spec_float) :
  SFcompare x z = Some Lt -> SFcompare y y = Some Eq ->
  SFcompare x y = Some Lt \/ SFcompare y z = Some Lt.
Proof.
  destruct x as [[]|[]| |[] mx ex], y as [[]|[]| |[] my ey],
    z as [[]|[]| |[] mz ez]; simpl; intros H1 H2;
    try discriminate; auto;
    F64.cmp_cases; simpl in *; try discriminate; auto;
    try (exfalso; lia); subst; try (exfalso; lia).
Qed.

Lemma ltb_not_nan_l (x c : float) : (x <? c) = true -> PrimFloat.is_nan x = false.
Proof.
  intros L. apply F64.ltb_cmp in L. apply F64.is_nan_cmp. unfold cmp in *.
  destruct (Prim2SF x) as [[]|[]| |[] mx ex], (Prim2SF c) as [[]|[]| |[] mc ec];
    simpl in *; try discriminate; try reflexivity;
    rewrite Z.compare_refl; change (Pos.compare_cont Eq mx mx) with (Pos.compare mx mx);
    rewrite Pos.compare_refl; reflexivity.
Qed.

(** numpy's order is a weak order: whatever sorts before [z] sorts before
    [y], unless [y] itself sorts before [z]. *)
Lemma np_lt_weak (x y z : float) :
  np_lt x z = true -> np_lt x y = true \/ np_lt y z = true.
Proof.
  unfold np_lt. intros H. apply orb_true_iff in H.
  destruct (PrimFloat.is_nan y) eqn:Ny.
  - left. apply orb_true_iff. right. cbn [andb]. apply negb_true_iff.
    destruct H as [H|H].
    + now apply ltb_not_nan_l in H.
    + apply andb_true_iff in H. now apply negb_true_iff, H.
  - destruct H as [H|H].
    + apply F64.ltb_cmp in H. apply F64.is_nan_cmp in Ny. unfold cmp in *.
      destruct (SFcompare_lt_weak _ _ _ H Ny) as [L|L];
        [left|right]; apply orb_true_iff; left; now apply F64.ltb_cmp.
    + right. apply orb_true_iff. right. apply andb_true_iff in H.
      now rewrite (proj1 H).
Qed.


(** The search keeps what it knows of both ends: below [lo] every edge
    sorts before the key, from [hi] on none does. *)
Lemma binsearch_left_spec (a : list float) (key : float) :
  np_sorted a ->
  forall fuel lo hi : nat,
    (hi - lo <= fuel)%nat -> (lo <= hi <= length a)%nat ->
    (forall j x, (j < lo)%nat -> a !! j = Some x -> np_lt x key = true) ->
    (forall j x, (hi <= j)%nat -> a !! j = Some x -> np_lt x key = false) ->
    (lo <= binsearch_left a key fuel lo hi <= hi)%nat /\
    (forall j x, (j < binsearch_left a key fuel lo hi)%nat ->
                 a !! j = Some x -> np_lt x key = true) /\
    (forall j x, (binsearch_left a key fuel lo hi <= j)%nat ->
                 a !! j = Some x -> np_lt x key = false).
Proof.
  intros S fuel. induction fuel as [|fuel IH]; intros lo hi F B Hlo Hhi;
    cbn [binsearch_left].
  - assert (hi = lo) as -> by lia. auto with lia.
  - destruct (Nat.ltb_spec lo hi) as [L|L].
    2:{ assert (hi = lo) as -> by lia. auto with lia. }
    set (mid := (lo + (hi - lo) / 2)%nat).
    assert ((hi - lo) / 2 < hi - lo)%nat as D by (apply Nat.div_lt; lia).
    assert (lo <= mid < hi)%nat as M by (unfold mid; lia).
    destruct (lookup_lt_is_Some_2 a mid) as [xm Xm]; [lia|].
    rewrite (nth_lookup_Some _ _ _ _ Xm).
    destruct (np_lt xm key) eqn:C.
    + destruct (IH (Datatypes.S mid) hi) as (R1 & R2 & R3); try lia; auto.
      * intros j x Hj Hx.
        destruct (np_lt_weak _ x _ C) as [W|W]; [|exact W].
        rewrite (S j mid x xm) in W; [discriminate|lia|exact Hx|exact Xm].
      * split; [lia|]. auto.
    + destruct (IH lo mid) as (R1 & R2 & R3); try lia; auto.
      * intros j x Hj Hx. apply not_true_is_false. intros W.
        destruct (np_lt_weak _ xm _ W) as [W'|W']; [|congruence].
        rewrite (S mid j xm x) in W'; [discriminate|lia|exact Xm|exact Hx].
      * split; [lia|]. auto.
Qed.

(** The edges of GPA_CATEGORY are increasing. *)
Lemma GPA_bins_sorted : np_sorted GPA_bins.
Proof.
  intros i j x y L Hi Hj.
  destruct i as [|[|[|[|i]]]]; try discriminate Hi;
    destruct j as [|[|[|[|j]]]]; try discriminate Hj; try lia;
    injection Hi as <-; injection Hj as <-; reflexivity.
Qed.

Lemma searchsorted_left_spec (a : list float) (key : float) :
  np_sorted a ->
  (searchsorted_left a key <= length a)%nat /\
  (forall (j : nat) (x : float),
     (j < searchsorted_left a key)%nat -> a !! j = Some x -> np_lt x key = true) /\
  (forall (j : nat) (x : float),
     (searchsorted_left a key <= j)%nat -> a !! j = Some x -> np_lt x key = false).
Proof.
  intros S. unfold searchsorted_left.
  destruct (binsearch_left_spec a key S (length a) 0 (length a)) as (R1 & R2 & R3);
    try lia.
  - intros j x Hj Hx. apply lookup_lt_Some in Hx. exfalso. lia.
  - split; [lia|]. auto.
Qed.

(** X10: on edges in increasing order [searchsorted(side='left')] returns
    the insertion point of the key: an index within the array such that
    every edge before it sorts before the key and no edge from it on does.
    The search never runs out of steps. *)
Theorem X10_searchsorted_left_partitions (a : list float) (key : float) :
  np_sorted a ->
  (searchsorted_left a key <= length a)%nat /\
  (forall (j : nat) (x : float),
     (j < searchsorted_left a key)%nat -> a !! j = Some x -> np_lt x key = true) /\
  (forall (j : nat) (x : float),
     (searchsorted_left a key <= j)%nat -> a !! j = Some x -> np_lt x key = false).
Proof. apply searchsorted_left_spec. Qed.

Lemma X10_searchsorted_left_partitions_witness :
  (searchsorted_left GPA_bins 3.0 <= length GPA_bins)%nat /\
  (forall (j : nat) (x : float),
     (j < searchsorted_left GPA_bins 3.0)%nat -> GPA_bins !! j = Some x ->
     np_lt x 3.0 = true) /\
  (forall (j : nat) (x : float),
     (searchsorted_left GPA_bins 3.0 <= j)%nat -> GPA_bins !! j = Some x ->
     np_lt x 3.0 = false).
Proof. apply (X10_searchsorted_left_partitions GPA_bins 3.0), GPA_bins_sorted. Defined.



End Search.

(** ** The range and the edge cases of the correlation *)

Section Correlation.

Local Open Scope float_scope.

Lemma is_nan_spec (v : float) : Prim2SF v = S754_nan -> PrimFloat.is_nan v = true.
Proof.
  intros H. unfold PrimFloat.is_nan. rewrite FloatAxioms.eqb_spec, H. reflexivity.
Qed.

(** What [np.clip] returns lies between the bounds, unless it is NaN. *)
Lemma clip_unit (v : float) :
  PrimFloat.is_nan (clip v (-1) 1) = true \/
  ((-1 <=? clip v (-1) 1) = true /\ (clip v (-1) 1 <=? 1) = true).
Proof.
  unfold clip. destruct (PrimFloat.is_nan v) eqn:N; [now left|]. right.
  destruct (v <? -1) eqn:A; [split; reflexivity|].
  destruct (1 <? v) eqn:B; [split; reflexivity|].
  split; now apply F64.not_ltb_leb.
Qed.

Lemma corr_cases (a b : list float) :
  corr a b = PrimFloat.nan \/ exists a' b' : list float, corr a b = corrcoef a' b'.
Proof. unfold corr. destruct (_ <? 1)%nat; eauto. Qed.

(** A product with infinity is NaN or infinite. *)
Lemma times_infinity (d : float) :
  Prim2SF (d * infinity) = S754_nan \/
  exists s : bool, Prim2SF (d * infinity) = S754_infinity s.
Proof.
  rewrite mul_spec. change (Prim2SF infinity) with (S754_infinity false).
  destruct (Prim2SF d) as [[]|[]| |[] m e]; cbn; eauto.
Qed.

(** With the scale [1 / 0] every entry of the covariance matrix is NaN or
    infinite, and the quotient by the two standard deviations is NaN. *)
Lemma scaled_by_infinity (d1 d2 d3 : float) :
  Prim2SF (d1 * infinity / PrimFloat.sqrt (d2 * infinity) / PrimFloat.sqrt (d3 * infinity))
  = S754_nan.
Proof.
  rewrite div_spec.
  assert (Prim2SF (d1 * infinity / PrimFloat.sqrt (d2 * infinity)) = S754_nan) as ->.
  { rewrite div_spec, sqrt_spec.
    destruct (times_infinity d1) as [->|[s1 ->]]; [reflexivity|].
    destruct (times_infinity d2) as [->|[[] ->]]; now destruct s1. }
  reflexivity.
Qed.

Lemma corrcoef_short (a b : list float) :
  (length a <= 1)%nat -> Prim2SF (corrcoef a b) = S754_nan.
Proof.
  intros L. unfold corrcoef. cbv zeta.
  destruct (Nat.leb_spec (length a) 1) as [_|C]; [|lia].
  change (1 / 0) with infinity.
  pose proof (scaled_by_infinity
    (dot (map (fun v => v - mean a) a) (map (fun v => v - mean b) b))
    (dot (map (fun v => v - mean a) a) (map (fun v => v - mean a) a))
    (dot (map (fun v => v - mean b) b) (map (fun v => v - mean b) b))) as H.
  unfold clip. now rewrite (is_nan_spec _ H).
Qed.

Lemma corr_short (a b : list float) :
  (length a <= 1)%nat -> Prim2SF (corr a b) = S754_nan.
Proof.
  intros L. unfold corr. cbv zeta. destruct (_ <? 1)%nat; [reflexivity|].
  apply corrcoef_short. rewrite length_map.
  etransitivity; [apply filter_length_le|].
  rewrite length_combine. lia.
Qed.

Lemma annotation_text_nan (r : float) :
  Prim2SF r = S754_nan ->
  annotation_text r = "<b>Correlation: nan</b><br>Moderate positive relationship"%string.
Proof.
  intros H. unfold annotation_text, format_3f, strength.
  rewrite H, FloatAxioms.ltb_spec, abs_spec, H. reflexivity.
Qed.

(** X12: for every table the correlation is NaN or lies between -1 and 1:
    the annotation never shows a coefficient beyond that range. *)
Theorem X12_correlation_is_bounded (df1 : list ChartRow) :
  PrimFloat.is_nan (correlation df1) = true \/
  ((-1 <=? correlation df1) = true /\ (correlation df1 <=? 1) = true).
Proof.
  unfold correlation.
  destruct (corr_cases (map (fun r => GPA (row r)) df1)
                       (map (fun r => ATTENDANCE (row r)) df1)) as [->|(a & b & ->)].
  - now left.
  - unfold corrcoef. cbv zeta. apply clip_unit.
Qed.

(** X13: with fewer than two rows left after filtering the correlation is
    NaN, whatever the values of the row: the annotation then reads
    "Correlation: nan" with the label "Moderate". *)
Theorem X13_single_row_has_no_correlation (df1 : list ChartRow) :
  (length df1 <= 1)%nat ->
  PrimFloat.is_nan (correlation df1) = true /\
  annotation_text (correlation df1) =
    "<b>Correlation: nan</b><br>Moderate positive relationship"%string.
Proof.
  intros L.
  assert (Prim2SF (correlation df1) = S754_nan) as H
    by (apply corr_short; now rewrite length_map).
  split; [now apply is_nan_spec|now apply annotation_text_nan].
Qed.

Lemma X13_single_row_has_no_correlation_witness :
  let df1 := df_chart1 [sample_row (Some "SG PR"%string) 3.0 80] in
  PrimFloat.is_nan (correlation df1) = true /\
  annotation_text (correlation df1) =
    "<b>Correlation: nan</b><br>Moderate positive relationship"%string.
Proof.
  cbv zeta. apply X13_single_row_has_no_correlation. vm_compute. lia.
Defined.

End Correlation.

(** ** How the steps fit together *)

Section Composition.

Local Open Scope float_scope.

(** X14: every GPA within the range of the GPA axis has a category: a
    point that the fixed range [1.5, 4.2] leaves in view carries one of the
    three labels. *)
Theorem X14_gpa_in_view_has_category (df1 : list ChartRow) (lo hi x : float) :
  Axis.range (yaxis (figure df1)) = Some (lo, hi) ->
  (lo <=? x) = true -> (x <=? hi) = true ->
  exists l : string, gpa_category x = Some l /\ In l GPA_labels.
Proof.
  intros R L U. injection R as <- <-.
  assert ((0 <? x) = true) as P by now apply (F64.ltb_leb_trans 0 1.5 x).
  assert ((5 <? x) = false) as Q.
  { apply not_true_is_false. intros C. now apply (no_value_between 5 4.2 x). }
  rewrite gpa_category_cases, (F64.ltb_not_nan _ _ P), Q, P.
  destruct (3.5 <? x); [|destruct (2.5 <? x)]; eexists; (split; [reflexivity|]);
    cbn; auto.
Qed.

Lemma X14_gpa_in_view_has_category_witness :
  exists l : string, gpa_category 3.0 = Some l /\ In l GPA_labels.
Proof.
  apply (X14_gpa_in_view_has_category [] 1.5 4.2 3.0); reflexivity.
Defined.

Lemma valid_pairs_of_complete (rows : list Row) :
  forallb complete rows = true ->
  List.filter (fun p => negb (PrimFloat.is_nan (fst p)) && negb (PrimFloat.is_nan (snd p)))
              (combine (map GPA rows) (map ATTENDANCE rows)) =
  combine (map GPA rows) (map ATTENDANCE rows).
Proof.
  induction rows as [|r rows IH]; cbn [forallb map combine List.filter]; [reflexivity|].
  intros H. apply andb_true_iff in H. destruct H as [C H].
  unfold complete in C. apply andb_true_iff in C. destruct C as [C _].
  cbn [fst snd]. rewrite C. f_equal. now apply IH.
Qed.

Lemma columns_of_combine (rows : list Row) :
  map fst (combine (map GPA rows) (map ATTENDANCE rows)) = map GPA rows /\
  map snd (combine (map GPA rows) (map ATTENDANCE rows)) = map ATTENDANCE rows.
Proof.
  induction rows as [|r rows [IH1 IH2]]; cbn [map combine fst snd]; [tauto|].
  now rewrite IH1, IH2.
Qed.

(** X15: on the filtered table the pairwise removal of NaN inside
    [Series.corr] removes nothing: with at least one row left, the
    correlation is computed over every row that the summary counts. *)
Theorem X15_correlation_uses_every_filtered_row (df : DataFrame) :
  df_chart1 df <> [] ->
  correlation (df_chart1 df) =
  corrcoef (map GPA (List.filter complete df)) (map ATTENDANCE (List.filter complete df)).
Proof.
  intros N. unfold correlation.
  rewrite <- (List.map_map row GPA), <- (List.map_map row ATTENDANCE).
  rewrite rows_of_df_chart1, dropna_required.
  assert (List.filter complete df <> []) as N'.
  { intros E. apply N. unfold df_chart1. now rewrite dropna_required, E. }
  unfold corr. cbv zeta.
  rewrite valid_pairs_of_complete.
  2:{ apply forallb_forall. intros r H. now apply filter_In in H. }
  destruct (columns_of_combine (List.filter complete df)) as [-> ->].
  rewrite length_combine, !length_map, Nat.min_id.
  destruct (List.filter complete df); [congruence|reflexivity].
Qed.

Lemma X15_correlation_uses_every_filtered_row_witness :
  correlation (df_chart1 linear_df) =
  corrcoef (map GPA (List.filter complete linear_df))
           (map ATTENDANCE (List.filter complete linear_df)).
Proof.
  apply (X15_correlation_uses_every_filtered_row linear_df).
  vm_compute. discriminate.
Defined.

End Composition.
